(** * gui_eel.py: the Python front end of monado-ctl's eel GUI

    The program is one Python module, [src/xrt/targets/ctl/gui_eel.py].
    Python compiles a module as a whole before it executes its first
    statement, so the development has two layers:

    - [Source], [Lexer], [Ast], [Parser]: the text of the module, a
      tokenizer and a parser for the part of Python's grammar the module
      is written in;
    - [Semantics]: an interpreter for the parsed statements over a model of
      what the module talks to (the import system, ctypes' dlopen/dlsym,
      eel), which records every outside effect in a trace. *)

From Stdlib Require Import String Ascii List Bool Arith ZArith.
From stdpp Require Import base option strings gmap.
Import ListNotations.
Local Open Scope string_scope.
Local Open Scope list_scope.
Set Warnings "-register-all".

(* ===================================================================== *)
(** ** The source text *)
(* ===================================================================== *)

Module Source.

(** The double quote character, U+0022. *)
Definition dq : string := String (ascii_of_nat 34) EmptyString.

(** [gui_eel_py]: the 24 lines of the file, line 1 first. *)
Definition gui_eel_py : list string := Eval cbv in
  [ "import eel"
  ; "from bottle import app"
  ; "from ctypes import *"
  ; "import time"
  ; "import sys"
  ; ""
  ; "# Load the shared library"
  ; String.concat "" ["lib_monado = CDLL("; dq; "./libmonado-ctl-gui.so"; dq; ")"]
  ; String.concat "" ["# cdll.LoadLibrary("; dq; "./libmonado-ctl-gui.so"; dq; ")"]
  ; "# lib_monado.printf"
  ; ""
  ; "eel.init('eel_web', allowed_extensions=['.js','.html'])"
  ; "# ctl.main_loop()"
  ; ""
  ; "@eel.expose"
  ; "def say_hello_py(x):"
  ; String.concat "" ["    print("; dq; "Hello from %s"; dq; " % x)"]
  ; "    "
  ; "say_hello_py('Python World')"
  ; "int connectection = lib_monado.get_mode"
  ; "eel.displayConnectedDevices('Javascript World !') #Calling the dISPL"
  ; ""
  ; "lib_monado.main_eel()"
  ; "eel.start('gui_eel.html', mode='brave' , size=(300, 200)) " ].

(** The path the module hands to [CDLL] on line 8. *)
Definition lib_path : string := "./libmonado-ctl-gui.so".

End Source.

(* ===================================================================== *)
(** ** Tokens *)
(* ===================================================================== *)

Module Lexer.

Inductive token :=
| TName (s : string)
| TNumber (s : string)
| TString (s : string)
| TOp (s : string)
| TError (s : string)
| TBeyond (s : string).

(** A logical line: the column of its first token and its tokens.  Lines
    that hold only blanks or a comment have no token. *)
Record line := Line { indent : nat; toks : list token }.

Definition in_range (lo hi : nat) (c : ascii) : bool :=
  let n := nat_of_ascii c in Nat.leb lo n && Nat.leb n hi.

Definition is_digit (c : ascii) : bool := in_range 48 57 c.
Definition is_name_start (c : ascii) : bool :=
  in_range 97 122 c || in_range 65 90 c || Ascii.eqb c "_"%char.
Definition is_name_char (c : ascii) : bool := is_name_start c || is_digit c.
Definition is_blank (c : ascii) : bool :=
  Ascii.eqb c " "%char || Nat.eqb (nat_of_ascii c) 9 || Nat.eqb (nat_of_ascii c) 12.
Definition is_quote (c : ascii) : bool :=
  Ascii.eqb c "'"%char || Nat.eqb (nat_of_ascii c) 34.

(** The longest prefix whose characters satisfy [p], and what follows. *)
Fixpoint span (p : ascii -> bool) (s : string) : string * string :=
  match s with
  | String c r =>
      if p c then let '(a, b) := span p r in (String c a, b) else (EmptyString, s)
  | EmptyString => (EmptyString, EmptyString)
  end.

(** The body of a string literal opened by quote [q]: the characters up to
    the closing quote (a backslash takes the next character with it), and
    the text after it; [None] when the line ends first. *)
Fixpoint string_body (q : ascii) (s : string) : option (string * string) :=
  match s with
  | EmptyString => None
  | String c r =>
      if Ascii.eqb c q then Some (EmptyString, r)
      else if Ascii.eqb c "\"%char then
        match r with
        | String c' r' =>
            match string_body q r' with
            | Some (a, b) => Some (String c (String c' a), b)
            | None => None
            end
        | EmptyString => None
        end
      else
        match string_body q r with
        | Some (a, b) => Some (String c a, b)
        | None => None
        end
  end.

Definition ops3 : list string := ["**="; "//="; ">>="; "<<="; "..."].
Definition ops2 : list string :=
  ["**"; "//"; ">>"; "<<"; "<="; ">="; "=="; "!="; "->"; "+="; "-="; "*=";
   "/="; "%="; "&="; "|="; "^="; "@="; ":="].
Definition ops1 : list string :=
  ["+"; "-"; "*"; "/"; "%"; "@"; "&"; "|"; "^"; "~"; "<"; ">"; "("; ")";
   "["; "]"; "{"; "}"; ","; ":"; "."; ";"; "="].

Definition mem (x : string) (l : list string) : bool :=
  existsb (String.eqb x) l.

(** The operator a text starts with, longest first. *)
Definition lex_op (s : string) : option (string * string) :=
  let try n :=
    let o := String.substring 0 n s in
    let l := match n with 3 => ops3 | 2 => ops2 | _ => ops1 end in
    if Nat.eqb (String.length o) n && mem o l
    then Some (o, String.substring n (String.length s - n) s) else None in
  match try 3 with
  | Some r => Some r
  | None => match try 2 with Some r => Some r | None => try 1 end
  end.

(** Prefixes that turn a following quote into a string literal. *)
Definition string_prefixes : list string :=
  ["r"; "u"; "b"; "f"; "R"; "U"; "B"; "F"; "br"; "rb"; "fr"; "rf";
   "Br"; "bR"; "BR"; "Rb"; "rB"; "RB"; "Fr"; "fR"; "FR"; "Rf"; "rF"; "RF"].

(** The tokens of one line, blanks and the comment dropped.  [fuel] bounds
    the number of tokens; a line has at most as many as characters.
    [TError] marks text that is no Python token; [TBeyond] marks Python
    this tokenizer does not follow (a string or a line that goes on in the
    next line, letters outside ASCII). *)
Fixpoint lex (fuel : nat) (s : string) : list token :=
  match fuel with
  | O => []
  | S fuel' =>
      match s with
      | EmptyString => []
      | String c r =>
          if is_blank c then lex fuel' r
          else if Ascii.eqb c "#"%char then []
          else if Nat.leb 128 (nat_of_ascii c) then [TBeyond "non-ASCII character"]
          else if Ascii.eqb c "\"%char then [TBeyond "line continuation"]
          else if is_quote c && String.prefix (String c (String c EmptyString)) r then
            [TBeyond "triple-quoted string"]
          else if is_quote c then
            match string_body c r with
            | Some (b, r') => TString b :: lex fuel' r'
            | None => [TError "unterminated string literal"]
            end
          else if is_name_start c then
            let '(n, r') := span is_name_char s in
            match r' with
            | String q r'' =>
                if is_quote q && mem n string_prefixes then
                  match string_body q r'' with
                  | Some (b, r3) => TString b :: lex fuel' r3
                  | None => [TError "unterminated string literal"]
                  end
                else TName n :: lex fuel' r'
            | EmptyString => [TName n]
            end
          else if is_digit c then
            let '(n, r') := span (fun x => is_name_char x || Ascii.eqb x "."%char) s in
            TNumber n :: lex fuel' r'
          else
            match lex_op s with
            | Some (o, r') => TOp o :: lex fuel' r'
            | None => [TError (String c EmptyString)]
            end
      end
  end.

(** The column of the first character that is not a blank; a tab moves to
    the next multiple of 8. *)
Fixpoint indent_of (col : nat) (s : string) : nat :=
  match s with
  | String c r =>
      if Ascii.eqb c " "%char then indent_of (S col) r
      else if Nat.eqb (nat_of_ascii c) 9 then indent_of ((col / 8 + 1) * 8) r
      else col
  | EmptyString => col
  end.

Definition lex_line (s : string) : line :=
  Line (indent_of 0 s) (lex (S (String.length s)) s).

End Lexer.

(* ===================================================================== *)
(** ** Abstract syntax *)
(* ===================================================================== *)

Module Ast.

Inductive constant := CTrue | CFalse | CNone.

Inductive expr :=
| EName (x : string)
| EConst (c : constant)
| ENum (n : string)
| EStr (s : string)
| EAttr (e : expr) (a : string)
| ECall (f : expr) (args : list expr) (kwargs : list (string * expr))
| ESubscript (e i : expr)
| EList (es : list expr)
| ETuple (es : list expr)
| EUnary (op : string) (e : expr)
| EBinary (op : string) (l r : expr).

Inductive stmt :=
| SImport (names : list (string * option string))
| SFromImport (m : string) (names : list (string * option string))
| SFromImportStar (m : string)
| SAssign (targets : list expr) (v : expr)
| SExpr (e : expr)
| SPass
| SReturn (e : option expr)
| SDef (decorators : list expr) (name : string) (params : list string)
       (body : list stmt).

End Ast.

(* ===================================================================== *)
(** ** Parser *)
(* ===================================================================== *)

Module Parser.
Import Lexer Ast.

(** Python's reserved words.  A reserved word is never a name. *)
Definition hard_keywords : list string :=
  ["False"; "None"; "True"; "and"; "as"; "assert"; "async"; "await";
   "break"; "class"; "continue"; "def"; "del"; "elif"; "else"; "except";
   "finally"; "for"; "from"; "global"; "if"; "import"; "in"; "is";
   "lambda"; "nonlocal"; "not"; "or"; "pass"; "raise"; "return"; "try";
   "while"; "with"; "yield"].

(** The reserved words whose constructs this parser follows. *)
Definition followed_keywords : list string :=
  ["False"; "None"; "True"; "and"; "as"; "def"; "from"; "import"; "in";
   "is"; "not"; "or"; "pass"; "return"].

(** Words that are reserved only at the head of some statements. *)
Definition soft_keywords : list string := ["match"; "case"; "type"].

Definition is_keyword (x : string) : bool := mem x hard_keywords.

(** Binary operators: the tokens they take, their name and binding
    strength (a larger number binds tighter). *)
Definition binary_op (ts : list token) : option (string * nat * list token) :=
  match ts with
  | TName "or" :: r => Some ("or", 1, r)
  | TName "and" :: r => Some ("and", 2, r)
  | TName "not" :: TName "in" :: r => Some ("not in", 4, r)
  | TName "is" :: TName "not" :: r => Some ("is not", 4, r)
  | TName "in" :: r => Some ("in", 4, r)
  | TName "is" :: r => Some ("is", 4, r)
  | TOp o :: r =>
      if mem o ["<"; ">"; "=="; ">="; "<="; "!="] then Some (o, 4, r)
      else if String.eqb o "|" then Some (o, 5, r)
      else if String.eqb o "^" then Some (o, 6, r)
      else if String.eqb o "&" then Some (o, 7, r)
      else if mem o ["<<"; ">>"] then Some (o, 8, r)
      else if mem o ["+"; "-"] then Some (o, 9, r)
      else if mem o ["*"; "/"; "//"; "%"; "@"] then Some (o, 10, r)
      else if String.eqb o "**" then Some (o, 12, r)
      else None
  | _ => None
  end.

(** Adjacent string literals are one string. *)
Fixpoint p_strings (acc : string) (ts : list token) : string * list token :=
  match ts with
  | TString s :: r => p_strings (String.append acc s) r
  | _ => (acc, ts)
  end.

Definition tuple_or_single (es : list expr) (comma : bool) : expr :=
  match es with
  | [e] => if comma then ETuple es else e
  | _ => ETuple es
  end.

(** Recursive descent over the tokens of one line; [n] bounds the depth of
    the descent.  Each function returns what it read and the tokens left,
    [None] when the tokens do not start with what it reads.
    [p_expr n minp] reads an expression whose operators bind at least as
    tightly as [minp]. *)
Fixpoint p_expr (n minp : nat) (ts : list token) {struct n}
  : option (expr * list token) :=
  match n with
  | O => None
  | S n' => '(l, r) ← p_operand n' minp ts; p_binrest n' minp l r
  end
with p_operand (n minp : nat) (ts : list token) {struct n}
  : option (expr * list token) :=
  match n with
  | O => None
  | S n' =>
      match ts with
      | TName "not" :: r =>
          if Nat.leb minp 3
          then '(e, r') ← p_expr n' 3 r; Some (EUnary "not" e, r')
          else None
      | TOp o :: r =>
          if mem o ["-"; "+"; "~"]
          then '(e, r') ← p_expr n' 12 r; Some (EUnary o e, r')
          else '(a, r') ← p_atom n' ts; p_trailers n' a r'
      | _ => '(a, r') ← p_atom n' ts; p_trailers n' a r'
      end
  end
with p_binrest (n minp : nat) (l : expr) (ts : list token) {struct n}
  : option (expr * list token) :=
  match n with
  | O => None
  | S n' =>
      match binary_op ts with
      | Some (o, prec, r) =>
          if Nat.leb minp prec then
            '(e, r') ← p_expr n' (if Nat.eqb prec 12 then 11 else S prec) r;
            p_binrest n' minp (EBinary o l e) r'
          else Some (l, ts)
      | None => Some (l, ts)
      end
  end
with p_atom (n : nat) (ts : list token) {struct n}
  : option (expr * list token) :=
  match n with
  | O => None
  | S n' =>
      match ts with
      | TName "True" :: r => Some (EConst CTrue, r)
      | TName "False" :: r => Some (EConst CFalse, r)
      | TName "None" :: r => Some (EConst CNone, r)
      | TName x :: r => if is_keyword x then None else Some (EName x, r)
      | TNumber s :: r => Some (ENum s, r)
      | TString s :: r => let '(s', r') := p_strings s r in Some (EStr s', r')
      | TOp "(" :: TOp ")" :: r => Some (ETuple [], r)
      | TOp "(" :: r =>
          '(es, comma, r') ← p_exprlist n' r;
          match r' with
          | TOp ")" :: r'' => Some (tuple_or_single es comma, r'')
          | _ => None
          end
      | TOp "[" :: TOp "]" :: r => Some (EList [], r)
      | TOp "[" :: r =>
          '(es, _, r') ← p_exprlist n' r;
          match r' with
          | TOp "]" :: r'' => Some (EList es, r'')
          | _ => None
          end
      | _ => None
      end
  end
with p_trailers (n : nat) (e : expr) (ts : list token) {struct n}
  : option (expr * list token) :=
  match n with
  | O => None
  | S n' =>
      match ts with
      | TOp "." :: TName a :: r =>
          if is_keyword a then None else p_trailers n' (EAttr e a) r
      | TOp "." :: _ => None
      | TOp "(" :: r =>
          '(args, kwargs, r') ← p_args n' false r;
          p_trailers n' (ECall e args kwargs) r'
      | TOp "[" :: r =>
          '(es, comma, r') ← p_exprlist n' r;
          match r' with
          | TOp "]" :: r'' => p_trailers n' (ESubscript e (tuple_or_single es comma)) r''
          | _ => None
          end
      | _ => Some (e, ts)
      end
  end
with p_exprlist (n : nat) (ts : list token) {struct n}
  : option (list expr * bool * list token) :=
  match n with
  | O => None
  | S n' =>
      '(e, r) ← p_expr n' 1 ts;
      match r with
      | TOp "," :: r' =>
          match p_exprlist n' r' with
          | Some (es, _, r'') => Some (e :: es, true, r'')
          | None => Some ([e], true, r')
          end
      | _ => Some ([e], false, r)
      end
  end
with p_args (n : nat) (seen_kw : bool) (ts : list token) {struct n}
  : option (list expr * list (string * expr) * list token) :=
  match n with
  | O => None
  | S n' =>
      let more (r : list token) (kw : bool) :=
        match r with
        | TOp ")" :: r' => Some ([], [], r')
        | TOp "," :: r' => p_args n' kw r'
        | _ => None
        end in
      match ts with
      | TOp ")" :: r => Some ([], [], r)
      | TName k :: TOp "=" :: r =>
          if is_keyword k then None else
          '(e, r') ← p_expr n' 1 r;
          '(args, kwargs, r'') ← more r' true;
          if mem k (map fst kwargs) then None
          else Some (args, (k, e) :: kwargs, r'')
      | _ =>
          if seen_kw then None else
          '(e, r') ← p_expr n' 1 ts;
          '(args, kwargs, r'') ← more r' false;
          Some (e :: args, kwargs, r'')
      end
  end.

(** Enough depth for a line of these tokens. *)
Definition depth_for (ts : list token) : nat := 8 * length ts + 8.

(** *** Simple statements *)

(** [NAME ('.' NAME)*], joined with dots. *)
Fixpoint p_dotted (n : nat) (ts : list token) : option (string * list token) :=
  match n, ts with
  | S n', TName a :: r =>
      if is_keyword a then None else
      match r with
      | TOp "." :: r' =>
          '(b, r'') ← p_dotted n' r';
          Some (String.append a (String.append "." b), r'')
      | _ => Some (a, r)
      end
  | _, _ => None
  end.

(** [name ['as' NAME] (',' name ['as' NAME])*] to the end of the line, where
    [name] is read by [p_name]. *)
Fixpoint p_aliases (n : nat) (p_name : list token -> option (string * list token))
    (ts : list token) : option (list (string * option string)) :=
  match n with
  | O => None
  | S n' =>
      '(a, r) ← p_name ts;
      let cont (al : option string) (r : list token) :=
        match r with
        | [] => Some [(a, al)]
        | TOp "," :: r' => rest ← p_aliases n' p_name r'; Some ((a, al) :: rest)
        | _ => None
        end in
      match r with
      | TName "as" :: TName b :: r' =>
          if is_keyword b then None else cont (Some b) r'
      | _ => cont None r
      end
  end.

Definition p_plain_name (ts : list token) : option (string * list token) :=
  match ts with
  | TName a :: r => if is_keyword a then None else Some (a, r)
  | _ => None
  end.

(** What may stand left of [=]. *)
Fixpoint is_target (e : expr) : bool :=
  match e with
  | EName _ | EAttr _ _ | ESubscript _ _ => true
  | ETuple es | EList es =>
      (fix all (l : list expr) : bool :=
         match l with [] => true | x :: l' => is_target x && all l' end) es
  | _ => false
  end.

(** [exprlist ('=' exprlist)*] to the end of the line: an expression
    statement, or an assignment of the last list to the ones before. *)
Fixpoint p_assign (n : nat) (targets : list expr) (ts : list token)
  : option stmt :=
  match n with
  | O => None
  | S n' =>
      '(es, comma, r) ← p_exprlist (depth_for ts) ts;
      let e := tuple_or_single es comma in
      match r with
      | [] =>
          match targets with
          | [] => Some (SExpr e)
          | _ => if forallb is_target targets then Some (SAssign targets e) else None
          end
      | TOp "=" :: r' => p_assign n' (targets ++ [e]) r'
      | _ => None
      end
  end.

Definition p_simple (ts : list token) : option stmt :=
  let n := depth_for ts in
  match ts with
  | TName "import" :: r => names ← p_aliases n (p_dotted n) r; Some (SImport names)
  | TName "from" :: r =>
      '(m, r') ← p_dotted n r;
      match r' with
      | [TName "import"; TOp "*"] => Some (SFromImportStar m)
      | TName "import" :: r'' =>
          names ← p_aliases n p_plain_name r''; Some (SFromImport m names)
      | _ => None
      end
  | [TName "pass"] => Some SPass
  | [TName "return"] => Some (SReturn None)
  | TName "return" :: r =>
      '(es, comma, r') ← p_exprlist n r;
      match r' with
      | [] => Some (SReturn (Some (tuple_or_single es comma)))
      | _ => None
      end
  | _ => p_assign n [] ts
  end.

(** *** Lines *)

(** What a line is: a simple statement, a decorator, the head of a
    function definition, no Python at all ([IBad], a SyntaxError), or
    Python outside the part of the grammar followed here ([IBeyond]), on
    which this parser gives no verdict. *)
Inductive item :=
| IStmt (s : stmt)
| IDecorator (e : expr)
| IDef (name : string) (params : list string)
| IBad
| IBeyond.

Definition beyond_ops : list string :=
  ["{"; "}"; ":"; ";"; ":="; "->"; "..."; "+="; "-="; "*="; "/="; "%=";
   "&="; "|="; "^="; "@="; "**="; "//="; ">>="; "<<="].

Definition is_op (o : string) (t : token) : bool :=
  match t with TOp o' => String.eqb o o' | _ => false end.

(** Brackets still open at the end of the line: the statement goes on in
    the next line. *)
Fixpoint open_brackets (depth : nat) (ts : list token) : bool :=
  match ts with
  | [] => negb (Nat.eqb depth 0)
  | TOp o :: r =>
      if mem o ["("; "["; "{"] then open_brackets (S depth) r
      else if mem o [")"; "]"; "}"] then open_brackets (pred depth) r
      else open_brackets depth r
  | _ :: r => open_brackets depth r
  end.

(** A star that is not a product: [*args], [**kwargs], [a, *b = c]. *)
Fixpoint prefix_star (at_start : bool) (ts : list token) : bool :=
  match ts with
  | [] => false
  | TOp o :: r =>
      if mem o ["*"; "**"] && at_start then true
      else prefix_star (mem o ["("; "["; ","; "="]) r
  | _ :: r => prefix_star false r
  end.

Definition plain_number (s : string) : bool :=
  forallb is_digit (list_ascii_of_string s).

Definition beyond_token (t : token) : bool :=
  match t with
  | TBeyond _ => true
  | TName x => is_keyword x && negb (mem x followed_keywords)
  | TNumber s => negb (plain_number s)
  | _ => false
  end.

Definition is_error (t : token) : bool :=
  match t with TError _ => true | _ => false end.

(** The head of a definition with plain parameters,
    [def NAME '(' [NAME (',' NAME)* [',']] ')' ':']. *)
Fixpoint p_params (ts : list token) : option (list string) :=
  match ts with
  | [TOp ")"; TOp ":"] => Some []
  | TName x :: TOp "," :: r =>
      if is_keyword x then None else ps ← p_params r; Some (x :: ps)
  | [TName x; TOp ")"; TOp ":"] => if is_keyword x then None else Some [x]
  | _ => None
  end.

Fixpoint no_dup (l : list string) : bool :=
  match l with
  | [] => true
  | x :: r => negb (mem x r) && no_dup r
  end.

Definition classify (ts : list token) : item :=
  if existsb beyond_token ts then IBeyond
  else if open_brackets 0 ts then IBeyond
  else if prefix_star true ts then IBeyond
  else
    match ts with
    | TName "def" :: TName f :: TOp "(" :: r =>
        match p_params r with
        | Some ps =>
            if is_keyword f then IBad
            else if no_dup ps then IDef f ps else IBad
        | None => IBeyond
        end
    | TName "def" :: _ => if existsb is_error ts then IBad else IBeyond
    | _ =>
        if existsb (fun t => existsb (fun o => is_op o t) beyond_ops) ts then IBeyond
        else if existsb is_error ts then IBad
        else
          match ts with
          | TName "from" :: TOp "." :: _ => IBeyond
          | TName "from" :: _ =>
              if existsb (is_op "(") ts then IBeyond
              else match p_simple ts with Some s => IStmt s | None => IBad end
          | TName x :: t :: _ =>
              if mem x soft_keywords && negb (match t with TOp _ => true | _ => false end)
              then IBeyond
              else match p_simple ts with Some s => IStmt s | None => IBad end
          | TOp "@" :: r =>
              match p_expr (depth_for r) 1 r with
              | Some (e, []) => IDecorator e
              | _ => IBad
              end
          | _ => match p_simple ts with Some s => IStmt s | None => IBad end
          end
    end.

(** *** Blocks *)

(** Why a module is not compiled: a SyntaxError raised at a line, or a
    line outside the grammar followed here. *)
Inductive failure :=
| SyntaxErrorAt (lineno : nat)
| BeyondAt (lineno : nat).

(** A line that holds tokens: its number, its indentation, what it is. *)
Definition entry : Type := nat * nat * item.

Definition is_return (s : stmt) : bool :=
  match s with SReturn _ => true | _ => false end.

(** [p_block n ind in_def ls]: the statements of the block indented by
    [ind] that [ls] starts with, and the lines after the block.  Lines are
    taken in order and the first line that fails ends the parse, as the
    compiler stops at its first error.  [n] bounds the number of lines. *)
Fixpoint p_block (n ind : nat) (in_def : bool) (ls : list entry) {struct n}
  : failure + (list stmt * list entry) :=
  match n with
  | O => inl (BeyondAt 0)
  | S n' =>
      match ls with
      | [] => inr ([], [])
      | (k, i, it) :: r =>
          if Nat.ltb i ind then inr ([], ls)
          else if Nat.ltb ind i then inl (SyntaxErrorAt k)
          else
            let continue (s : stmt) (r : list entry) :=
              match p_block n' ind in_def r with
              | inr (ss, r') => inr (s :: ss, r')
              | inl f => inl f
              end in
            match it with
            | IBeyond => inl (BeyondAt k)
            | IBad => inl (SyntaxErrorAt k)
            | IStmt s =>
                if is_return s && negb in_def then inl (SyntaxErrorAt k)
                else continue s r
            | IDecorator _ | IDef _ _ =>
                match p_def n' ind [] ls with
                | inr (s, r') => continue s r'
                | inl f => inl f
                end
            end
      end
  end
with p_def (n ind : nat) (decs : list expr) (ls : list entry) {struct n}
  : failure + (stmt * list entry) :=
  match n with
  | O => inl (BeyondAt 0)
  | S n' =>
      match ls with
      | (k, i, IDecorator e) :: r =>
          if Nat.eqb i ind then p_def n' ind (decs ++ [e]) r
          else inl (SyntaxErrorAt k)
      | (k, i, IDef f ps) :: r =>
          if Nat.eqb i ind then
            match r with
            | (k', i', _) :: _ =>
                if Nat.ltb ind i' then
                  match p_block n' i' true r with
                  | inr (body, r') => inr (SDef decs f ps body, r')
                  | inl e => inl e
                  end
                else inl (SyntaxErrorAt k')
            | [] => inl (SyntaxErrorAt (S k))
            end
          else inl (SyntaxErrorAt k)
      | (k, _, IBeyond) :: _ => inl (BeyondAt k)
      | (k, _, _) :: _ => inl (SyntaxErrorAt k)
      | [] => inl (SyntaxErrorAt 0)
      end
  end.

(** The lines of a text that hold tokens, numbered from [k]. *)
Fixpoint entries (k : nat) (src : list string) : list entry :=
  match src with
  | [] => []
  | s :: r =>
      let l := lex_line s in
      match toks l with
      | [] => entries (S k) r
      | ts => (k, indent l, classify ts) :: entries (S k) r
      end
  end.

(** [compile src]: the statements of the module whose lines are [src], or
    the first failure. *)
Definition compile (src : list string) : failure + list stmt :=
  let ls := entries 1 src in
  match p_block (2 * length ls + 2) 0 false ls with
  | inr (ss, _) => inr ss
  | inl f => inl f
  end.

End Parser.

(* ===================================================================== *)
(** ** What the module talks to, and what it does there *)
(* ===================================================================== *)

Module Semantics.
Import Ast.

(** The effects of a run that are visible outside the interpreter. *)
Inductive event :=
| EvImport (m : string)
| EvLoadLibrary (path : string)
| EvResolve (path sym : string)
| EvNativeCall (path sym : string)
| EvEelInit (root : string)
| EvExpose (f : string)
| EvPrint (text : string)
| EvJsCall (f : string)
| EvUIStart (page : string).

Inductive exn :=
| SyntaxError (lineno : nat)
| ModuleNotFoundError (m : string)
| NameError (x : string)
| AttributeError (a : string)
| OSError (path : string)
| TypeError
| RecursionError.

(** The class name Python prints for an exception. *)
Definition exn_name (e : exn) : string :=
  match e with
  | SyntaxError _ => "SyntaxError"
  | ModuleNotFoundError _ => "ModuleNotFoundError"
  | NameError _ => "NameError"
  | AttributeError _ => "AttributeError"
  | OSError _ => "OSError"
  | TypeError => "TypeError"
  | RecursionError => "RecursionError"
  end.

Inductive value :=
| VNone
| VBool (b : bool)
| VInt (z : Z)
| VStr (s : string)
| VList (vs : list value)
| VTuple (vs : list value)
| VModule (m : string)
| VBuiltin (qualname : string)
| VLibrary (id : nat) (path : string)
| VFuncPtr (path sym : string)
| VFunction (name : string) (params : list string) (body : list stmt)
| VJsFunction (name : string).

(** What a call into the native library does: it returns an integer (an
    error code is such a return), it never returns, or it faults and the
    operating system ends the process.  ctypes gives native code no way
    to raise a Python exception. *)
Inductive native_result :=
| NReturns (z : Z)
| NBlocks
| NFaults.

(** The outside of the program.  [module_found]: the import system finds
    the module.  [dlopen], [dlsym]: the dynamic loader opens the file, and
    the opened file exports the symbol.  [native path sym]: what a call
    of the symbol does.  [js_exposed]: the JavaScript under eel's web
    folder exposes the function to Python.  [ui_available]: eel can bring
    the UI up (a free port, a browser to open). *)
Record world := World {
  module_found : string -> bool;
  dlopen : string -> bool;
  dlsym : string -> string -> bool;
  native : string -> string -> native_result;
  js_exposed : string -> bool;
  ui_available : bool
}.

(** The interpreter's state: the module's globals, whether a star import
    has brought in names that [module_exports] does not list, whether
    [eel.init] has read the web folder, the function pointers each [CDLL]
    object has cached ([CDLL.__getattr__] stores what it resolves on the
    object), the number of [CDLL] objects made, and the effects so far,
    oldest first. *)
Record state := State {
  globals : gmap string value;
  open_names : bool;
  eel_ready : bool;
  cached : gset (nat * string);
  next_id : nat;
  trace : list event
}.

Definition initial : state := State ∅ false false ∅ 0 [].

(** How an evaluation ends when it yields no value: an exception goes
    up, a native call never returns, a native call faults and the process
    is ended from outside, [eel.start] has taken over and serves the UI,
    or the program leaves the part of Python interpreted here. *)
Inductive abort :=
| Raised (e : exn)
| Hangs
| Killed
| Serves
| Unmodelled.

Definition M (A : Type) : Type := state -> state * (abort + A).

Definition ret {A} (a : A) : M A := fun st => (st, inr a).
Definition fail {A} (x : abort) : M A := fun st => (st, inl x).
Definition raise {A} (e : exn) : M A := fail (Raised e).
Definition bind {A B} (m : M A) (k : A -> M B) : M B :=
  fun st =>
    match m st with
    | (st', inr a) => k a st'
    | (st', inl x) => (st', inl x)
    end.
Definition get : M state := fun st => (st, inr st).
Definition emit (e : event) : M unit :=
  fun '(State g o r c n t) => (State g o r c n (t ++ [e]), inr tt).
Definition set_global (x : string) (v : value) : M unit :=
  fun '(State g o r c n t) => (State (<[x := v]> g) o r c n t, inr tt).
Definition set_open_names : M unit :=
  fun '(State g _ r c n t) => (State g true r c n t, inr tt).
Definition set_eel_ready : M unit :=
  fun '(State g o _ c n t) => (State g o true c n t, inr tt).
Definition cache (id : nat) (sym : string) : M unit :=
  fun '(State g o r c n t) => (State g o r ({[ (id, sym) ]} ∪ c) n t, inr tt).
Definition fresh_id : M nat :=
  fun '(State g o r c n t) => (State g o r c (S n) t, inr n).

#[global] Instance M_bind : MBind M := fun A B k m => bind m k.

(** The names a module gives to its importers, as far as this program
    uses them (eel, bottle and ctypes define many more); [None] for a
    module whose names are not followed at all. *)
Definition module_exports (m : string) : option (list string) :=
  if String.eqb m "eel" then Some ["init"; "expose"; "start"]
  else if String.eqb m "bottle" then Some ["app"]
  else if String.eqb m "ctypes" then Some ["CDLL"; "cdll"]
  else None.

(** The modules a module imports itself, among the modules this program
    names: eel is built on bottle. *)
Definition module_imports (m : string) : list string :=
  if String.eqb m "eel" then ["bottle"] else [].

Definition builtins : list string := ["print"].

Definition qualified (m a : string) : string :=
  String.append m (String.append "." a).

(** Python's [%] on a string and one value that is not a tuple: the
    first [%s] is replaced by the value's text. *)
Fixpoint format_s (fmt arg : string) : option string :=
  match fmt with
  | String "%" (String "s" r) => Some (String.append arg r)
  | String c r => option_map (String c) (format_s r arg)
  | EmptyString => None
  end.

Definition text_of (v : value) : option string :=
  match v with
  | VStr s => Some s
  | VNone => Some "None"
  | VBool true => Some "True"
  | VBool false => Some "False"
  | _ => None
  end.

Definition digit_value (c : ascii) : Z := Z.of_nat (nat_of_ascii c - 48).

Definition number_of (s : string) : Z :=
  fold_left (fun acc c => (10 * acc + digit_value c)%Z) (list_ascii_of_string s) 0%Z.

Section Interp.
Variable w : world.
(** Calling a function defined by [def]: parameters, body, arguments. *)
Variable call_user : list string -> list stmt -> list value -> M value.

Definition scope : Type := gmap string value.

Definition lookup_name (locals : option scope) (x : string) : M value :=
  st ← get;
  match locals ≫= (fun l => l !! x) with
  | Some v => ret v
  | None =>
      match globals st !! x with
      | Some v => ret v
      | None =>
          if Lexer.mem x builtins then ret (VBuiltin x)
          else if open_names st then fail Unmodelled
          else raise (NameError x)
      end
  end.

(** [o.a].  On a module: one of its names; on eel also a JavaScript
    function that [eel.init] found, and a name of eel that is neither is
    taken to be absent.  On a [CDLL] object: the cached
    function pointer, else the symbol is looked up with dlsym now, and an
    absent symbol is an AttributeError. *)
Definition get_attr (o : value) (a : string) : M value :=
  match o with
  | VModule m =>
      st ← get;
      match module_exports m with
      | Some names =>
          if Lexer.mem a names then ret (VBuiltin (qualified m a))
          else if String.eqb m "eel" then
            if eel_ready st && js_exposed w a then ret (VJsFunction a)
            else raise (AttributeError a)
          else fail Unmodelled
      | None => fail Unmodelled
      end
  | VLibrary id path =>
      st ← get;
      if bool_decide ((id, a) ∈ cached st) then ret (VFuncPtr path a)
      else if dlsym w path a then
        emit (EvResolve path a);; cache id a;; ret (VFuncPtr path a)
      else raise (AttributeError a)
  | _ => fail Unmodelled
  end.

(** [f(args, kwargs)] once [f] and the arguments are values.
    [CDLL(path)] opens the library with dlopen and raises OSError when
    that fails; it looks no symbol up.  [eel.init] reads the web folder,
    after which the JavaScript functions found there are attributes of
    eel.  [eel.expose] registers a Python function for the UI and gives it
    back.  Calling a JavaScript function hands the call to eel, which
    sends it once a page is connected.  [eel.start], called as on line
    24 without [block=False], starts the UI and does not come back to the
    module: it serves until the last page is closed and then ends the
    process itself; it raises OSError when the UI cannot be brought up.
    Calling a function pointer enters the native code, which returns an
    integer, does not return, or faults. *)
Definition call (f : value) (args : list value) (kwargs : list (string * value))
  : M value :=
  match f with
  | VBuiltin "print" =>
      match args with
      | [v] =>
          match text_of v with
          | Some s => emit (EvPrint s);; ret VNone
          | None => fail Unmodelled
          end
      | _ => fail Unmodelled
      end
  | VBuiltin "ctypes.CDLL" =>
      match args with
      | VStr path :: _ =>
          if dlopen w path then
            emit (EvLoadLibrary path);; id ← fresh_id; ret (VLibrary id path)
          else raise (OSError path)
      | _ => fail Unmodelled
      end
  | VBuiltin "eel.init" =>
      match args with
      | VStr root :: _ => emit (EvEelInit root);; set_eel_ready;; ret VNone
      | _ => fail Unmodelled
      end
  | VBuiltin "eel.expose" =>
      match args with
      | [VFunction name ps body] => emit (EvExpose name);; ret (VFunction name ps body)
      | _ => fail Unmodelled
      end
  | VBuiltin "eel.start" =>
      match args with
      | VStr page :: _ =>
          if ui_available w then emit (EvUIStart page);; fail Serves
          else raise (OSError page)
      | _ => fail Unmodelled
      end
  | VBuiltin _ => fail Unmodelled
  | VJsFunction name => emit (EvJsCall name);; ret VNone
  | VFuncPtr path sym =>
      emit (EvNativeCall path sym);;
      match native w path sym with
      | NReturns z => ret (VInt z)
      | NBlocks => fail Hangs
      | NFaults => fail Killed
      end
  | VFunction _ ps body =>
      match kwargs with
      | [] => if Nat.eqb (length ps) (length args)
              then call_user ps body args else raise TypeError
      | _ => fail Unmodelled
      end
  | _ => raise TypeError
  end.

Definition binary (op : string) (l r : value) : M value :=
  match op, l with
  | "%", VStr fmt =>
      match text_of r with
      | Some s =>
          match format_s fmt s with
          | Some out => ret (VStr out)
          | None => raise TypeError
          end
      | None => fail Unmodelled
      end
  | _, _ => fail Unmodelled
  end.

(** The value of an expression; operands, then arguments, left to right. *)
Fixpoint eval (locals : option scope) (e : expr) {struct e} : M value :=
  let eval_list :=
    fix eval_list (es : list expr) : M (list value) :=
      match es with
      | [] => ret []
      | x :: r => v ← eval locals x; vs ← eval_list r; ret (v :: vs)
      end in
  match e with
  | EName x => lookup_name locals x
  | EConst CTrue => ret (VBool true)
  | EConst CFalse => ret (VBool false)
  | EConst CNone => ret VNone
  | ENum n => ret (VInt (number_of n))
  | EStr s => ret (VStr s)
  | EAttr o a => v ← eval locals o; get_attr v a
  | ECall f args kwargs =>
      fv ← eval locals f;
      vs ← eval_list args;
      kvs ← (fix eval_kw (ks : list (string * expr)) : M (list (string * value)) :=
                match ks with
                | [] => ret []
                | (k, x) :: r => v ← eval locals x; kvs ← eval_kw r; ret ((k, v) :: kvs)
                end) kwargs;
      call fv vs kvs
  | EList es => vs ← eval_list es; ret (VList vs)
  | ETuple es => vs ← eval_list es; ret (VTuple vs)
  | EBinary op l r => a ← eval locals l; b ← eval locals r; binary op a b
  | ESubscript _ _ | EUnary _ _ => fail Unmodelled
  end.

(** How a statement leaves its block. *)
Inductive control := Next | Return (v : value).

Definition bind_name (locals : option scope) (x : string) (v : value)
  : M (option scope) :=
  match locals with
  | Some l => ret (Some (<[x := v]> l))
  | None => set_global x v;; ret None
  end.

Fixpoint bind_names (locals : option scope) (xs : list (string * value))
  : M (option scope) :=
  match xs with
  | [] => ret locals
  | (x, v) :: r => l ← bind_name locals x v; bind_names l r
  end.

(** [import m]: the module itself has to be found, and then the modules
    it imports in turn; the first one missing is the one the
    ModuleNotFoundError names. *)
Definition import_module (m : string) : M value :=
  if module_found w m then
    match List.find (fun d => negb (module_found w d)) (module_imports m) with
    | Some d => raise (ModuleNotFoundError d)
    | None => emit (EvImport m);; ret (VModule m)
    end
  else raise (ModuleNotFoundError m).

Fixpoint exec_imports (locals : option scope) (names : list (string * option string))
  : M (option scope) :=
  match names with
  | [] => ret locals
  | (m, al) :: r =>
      v ← import_module m;
      l ← bind_name locals (default m al) v;
      exec_imports l r
  end.

Fixpoint exec_from (locals : option scope) (m : string)
    (names : list (string * option string)) : M (option scope) :=
  match names with
  | [] => ret locals
  | (a, al) :: r =>
      match module_exports m with
      | Some names =>
          if Lexer.mem a names then
            l ← bind_name locals (default a al) (VBuiltin (qualified m a));
            exec_from l m r
          else fail Unmodelled
      | None => fail Unmodelled
      end
  end.

(** Decorators are applied from the one nearest to [def] upwards. *)
Fixpoint decorate (ds : list value) (f : value) : M value :=
  match ds with
  | [] => ret f
  | d :: r => g ← decorate r f; call d [g] []
  end.

Fixpoint eval_all (locals : option scope) (es : list expr) : M (list value) :=
  match es with
  | [] => ret []
  | x :: r => v ← eval locals x; vs ← eval_all locals r; ret (v :: vs)
  end.

Fixpoint assign (locals : option scope) (targets : list expr) (v : value)
  : M (option scope) :=
  match targets with
  | [] => ret locals
  | EName x :: r => l ← bind_name locals x v; assign l r v
  | _ => fail Unmodelled
  end.

Definition exec_stmt (locals : option scope) (s : stmt)
  : M (option scope * control) :=
  match s with
  | SImport names => l ← exec_imports locals names; ret (l, Next)
  | SFromImport m names =>
      _ ← import_module m; l ← exec_from locals m names; ret (l, Next)
  | SFromImportStar m =>
      _ ← import_module m;
      l ← bind_names locals
             (map (fun a => (a, VBuiltin (qualified m a)))
                  (default [] (module_exports m)));
      set_open_names;;
      ret (l, Next)
  | SAssign targets e => v ← eval locals e; l ← assign locals targets v; ret (l, Next)
  | SExpr e => _ ← eval locals e; ret (locals, Next)
  | SPass => ret (locals, Next)
  | SReturn None => ret (locals, Return VNone)
  | SReturn (Some e) => v ← eval locals e; ret (locals, Return v)
  | SDef decs name ps body =>
      ds ← eval_all locals decs;
      f ← decorate ds (VFunction name ps body);
      l ← bind_name locals name f;
      ret (l, Next)
  end.

(** Statements run in order; an abort or a [return] ends the block. *)
Fixpoint exec_block (locals : option scope) (ss : list stmt) : M control :=
  match ss with
  | [] => ret Next
  | s :: r =>
      '(l, c) ← exec_stmt locals s;
      match c with
      | Next => exec_block l r
      | Return v => ret (Return v)
      end
  end.

End Interp.

(** A call of a [def] function with [depth] frames left: the parameters
    are bound in a new local scope and the body runs there; running out
    of frames is Python's RecursionError. *)
Fixpoint call_user (w : world) (depth : nat) (ps : list string)
    (body : list stmt) (args : list value) {struct depth} : M value :=
  match depth with
  | O => raise RecursionError
  | S d =>
      c ← exec_block w (call_user w d)
             (Some (list_to_map (zip ps args))) body;
      match c with
      | Return v => ret v
      | Next => ret VNone
      end
  end.

(** [sys.getrecursionlimit()] of a fresh interpreter. *)
Definition recursion_limit : nat := 1000.

(** How the process ends, and what it did: the module ran to its end; an
    exception was not caught; a native call never returned; a native call
    faulted and the process was ended by a signal; the run is inside
    [eel.start], serving the UI; the run left the interpreted part of
    Python. *)
Inductive ending :=
| Finished
| Uncaught (e : exn)
| NeverReturns
| KilledBySignal
| ServesUI
| NotInterpreted.

Record run := Run { ending_of : ending; effects : list event }.

(** The statements of a module run as the main program. *)
Definition exec_module (w : world) (ss : list stmt) : run :=
  match exec_block w (call_user w recursion_limit) None ss initial with
  | (st, inr _) => Run Finished (trace st)
  | (st, inl (Raised e)) => Run (Uncaught e) (trace st)
  | (st, inl Hangs) => Run NeverReturns (trace st)
  | (st, inl Killed) => Run KilledBySignal (trace st)
  | (st, inl Serves) => Run ServesUI (trace st)
  | (st, inl Unmodelled) => Run NotInterpreted (trace st)
  end.

(** [python gui_eel.py]: the file is compiled as a whole; a SyntaxError
    is reported before any statement has run, else the statements run. *)
Definition python (w : world) (src : list string) : run :=
  match Parser.compile src with
  | inl (Parser.SyntaxErrorAt k) => Run (Uncaught (SyntaxError k)) []
  | inl (Parser.BeyondAt _) => Run NotInterpreted []
  | inr ss => exec_module w ss
  end.

(** The exit status of the process as far as the module decides it: 0
    when the program runs to its end, 1 when an exception is not caught;
    none when the process does not end, is ended by a signal, or is left
    to [eel.start]. *)
Definition exit_code (r : run) : option Z :=
  match ending_of r with
  | Finished => Some 0%Z
  | Uncaught _ => Some 1%Z
  | NeverReturns | KilledBySignal | ServesUI | NotInterpreted => None
  end.

End Semantics.

(* ===================================================================== *)
(** ** The module, run *)
(* ===================================================================== *)

Import Source Lexer Parser Semantics.

Definition up_to_line_8 : list string := take 8 gui_eel_py.
Definition up_to_line_17 : list string := take 17 gui_eel_py.
Definition up_to_line_19 : list string := take 19 gui_eel_py.

(** The statements a text compiles to; none when it does not compile. *)
Definition statements (src : list string) : list Ast.stmt :=
  match compile src with
  | inr ss => ss
  | inl _ => []
  end.

(** The modules the file imports. *)
Definition imported : list string := ["eel"; "bottle"; "ctypes"; "time"; "sys"].

(** Every imported module is installed. *)
Definition installed (w : world) : bool := forallb (module_found w) imported.

(** The traces of a run that gets through the imports and through line
    19. *)
Definition t_imports : list event := map EvImport imported.

(** The statements of the first lines written out as one decision over
    the outside world: each line adds its effect to the trace and the
    first failure ends the run.  [import_all] is lines 1 to 5,
    [script_load] goes on to line 8, [script_define] to line 17 and
    [script_greet] to line 19. *)
Fixpoint import_all (w : world) (ms : list string) (t : list event) : run :=
  match ms with
  | [] => Run Finished t
  | m :: r =>
      if module_found w m then
        match List.find (fun d => negb (module_found w d)) (module_imports m) with
        | Some d => Run (Uncaught (ModuleNotFoundError d)) t
        | None => import_all w r (t ++ [EvImport m])
        end
      else Run (Uncaught (ModuleNotFoundError m)) t
  end.

Definition script_load (w : world) : run :=
  match import_all w imported [] with
  | Run Finished t =>
      if dlopen w lib_path then Run Finished (t ++ [EvLoadLibrary lib_path])
      else Run (Uncaught (OSError lib_path)) t
  | r => r
  end.

Definition script_define (w : world) : run :=
  match script_load w with
  | Run Finished t8 =>
      Run Finished (t8 ++ [EvEelInit "eel_web"; EvExpose "say_hello_py"])
  | r => r
  end.


(** Line 19 is the module's own call of [say_hello_py];
    [call_say_hello_py s] is that call with the string [s] as the
    argument. *)
Definition call_say_hello_py (s : string) : Ast.stmt :=
  Ast.SExpr (Ast.ECall (Ast.EName "say_hello_py") [Ast.EStr s] []).

Definition hello_run (w : world) (s : string) : run :=
  exec_module w (statements up_to_line_17 ++ [call_say_hello_py s]).

(** Outside worlds used as examples: everything is there and [main_eel]
    returns; the library file cannot be opened; the library opens but
    exports no symbol; eel is not installed. *)
Definition w_all_there : world :=
  World (fun _ => true) (fun _ => true) (fun _ _ => true)
        (fun _ _ => NReturns 0%Z) (fun _ => true) true.
Definition w_no_library : world :=
  World (fun _ => true) (fun _ => false) (fun _ _ => true)
        (fun _ _ => NReturns 0%Z) (fun _ => true) true.


Definition is_native_call (e : event) : bool :=
  match e with EvNativeCall _ _ => true | _ => false end.
Definition is_load (e : event) : bool :=
  match e with EvLoadLibrary _ => true | _ => false end.
Definition is_ui_start (e : event) : bool :=
  match e with EvUIStart _ => true | _ => false end.

(** How many events of a trace satisfy [p]. *)
Definition count (p : event -> bool) (t : list event) : nat :=
  length (List.filter p t).

(** The exception of a native library that cannot be loaded: the OSError
    that [CDLL] raises. *)
Definition load_error (e : exn) : bool :=
  match e with OSError _ => true | _ => false end.

(** The tokens of line 20. *)
Definition line_20 : list token :=
  toks (lex_line (nth 19 gui_eel_py "")).

(* ===================================================================== *)
(** ** Proofs *)
(* ===================================================================== *)

(** Symbolic runs.  With the outside world a variable, a run evaluates up
    to the first question it puts to the world; [head_query] finds that
    question in the weak head normal form, and [ask_world] answers it
    (as before, if it has been asked before, else both ways) and goes on,
    until the run has ended on every path. *)
Ltac spine_head f := lazymatch f with ?g _ => spine_head g | _ => f end.

Ltac head_query t :=
  lazymatch t with
  | match ?x with _ => _ end => head_query x
  | _ =>
      let h := spine_head t in
      lazymatch h with
      | match ?x with _ => _ end => head_query x
      | _ => t
      end
  end.

Ltac ask_world :=
  match goal with
  | |- _ = ?r => let r' := eval vm_compute in r in change r with r'
  end;
  repeat match goal with
         | |- ?l = ?r =>
             let l' := eval lazy head in l in
             lazymatch l' with
             | Run _ _ => fail
             | _ =>
                 let q := head_query l' in
                 let q' := eval vm_compute in q in
                 change (l' = r); try change q with q';
                 lazymatch goal with
                 | H : q' = _ |- _ => rewrite H
                 | _ => destruct q' eqn:?
                 end
             end
         end.

Ltac run_both_sides :=
  with_strategy transparent [gmap_empty] ask_world; vm_compute; reflexivity.


Lemma python_up_to_line_8 (w : world) : python w up_to_line_8 = script_load w.
Proof. destruct w as [mf dl ds nt js ui]. run_both_sides. Qed.


(** The file as it is: compiling stops at line 20 and nothing has run. *)
Lemma python_gui_eel_py (w : world) :
  python w gui_eel_py = Run (Uncaught (SyntaxError 20)) [].
Proof. reflexivity. Qed.

Lemma installed_imports (w : world) :
  installed w = true -> import_all w imported [] = Run Finished t_imports.
Proof.
  unfold installed, imported; cbn [forallb].
  intros H. repeat (apply andb_prop in H as [? H]).
  cbn. repeat match goal with E : module_found w _ = true |- _ =>
                rewrite E; clear E; cbn end.
  reflexivity.
Qed.

(** Line 20 fails for what it says, not for want of depth: at no depth is
    it an expression to the end of the line, nor an assignment. *)
Lemma line_20_no_expression (n minp : nat) (e : Ast.expr) :
  p_expr n minp line_20 <> Some (e, []).
Proof. destruct n as [|[|[|n]]]; vm_compute; discriminate. Qed.

Lemma line_20_no_assignment (n : nat) : p_assign n [] line_20 = None.
Proof. destruct n; reflexivity. Qed.

Lemma line_20_is_bad : classify line_20 = IBad.
Proof. reflexivity. Qed.

(** The same line without its first word is an assignment, and the lines
    before and after line 20 are statements: nine and three of them. *)
Lemma line_20_without_int :
  compile ["connectection = lib_monado.get_mode"]
    = inr [Ast.SAssign [Ast.EName "connectection"]
                       (Ast.EAttr (Ast.EName "lib_monado") "get_mode")].
Proof. reflexivity. Qed.

Lemma other_lines_compile :
  length (statements up_to_line_19) = 9 /\
  length (statements (drop 20 gui_eel_py)) = 3.
Proof. split; reflexivity. Qed.

(** A block that aborts does so whatever follows it: the statements after
    the failing one never run. *)
Lemma exec_block_aborts_app (w : world) cu (ss1 ss2 : list Ast.stmt) :
  forall locals st st' x,
    exec_block w cu locals ss1 st = (st', inl x) ->
    exec_block w cu locals (ss1 ++ ss2) st = (st', inl x).
Proof.
  induction ss1 as [|s r IH]; intros locals st st' x H.
  - discriminate H.
  - cbn [app exec_block] in *. unfold mbind, M_bind, bind in *.
    destruct (exec_stmt w cu locals s st) as [st1 [y | [l c]]]; [exact H|].
    destruct c; [apply IH; exact H | discriminate H].
Qed.

Lemma exec_module_aborts_app (w : world) (ss1 ss2 : list Ast.stmt) :
  ending_of (exec_module w ss1) <> Finished ->
  exec_module w (ss1 ++ ss2) = exec_module w ss1.
Proof.
  unfold exec_module. intros H.
  destruct (exec_block w (call_user w recursion_limit) None ss1 initial)
    as [st [x | c]] eqn:E.
  - rewrite (exec_block_aborts_app _ _ _ ss2 _ _ _ _ E). reflexivity.
  - exfalso. apply H. reflexivity.
Qed.


(* ===================================================================== *)
(** ** The module as it is *)
(* ===================================================================== *)

(** C1.  Whatever the outside world is, running the module fails before
    any statement runs: the compiler stops at line 20
    ([int connectection = lib_monado.get_mode]), which is no Python
    statement, with a SyntaxError; the run has no effect at all, so no
    native library is loaded, no native symbol is called and no UI is
    started. *)
Theorem module_fails_before_any_statement (w : world) :
  compile gui_eel_py = inl (SyntaxErrorAt 20) /\
  classify line_20 = IBad /\
  python w gui_eel_py = Run (Uncaught (SyntaxError 20)) [] /\
  count is_load (effects (python w gui_eel_py)) = 0 /\
  count is_native_call (effects (python w gui_eel_py)) = 0 /\
  count is_ui_start (effects (python w gui_eel_py)) = 0.
Proof. repeat split. Qed.

(* ===================================================================== *)
(** ** What the statements do when they run *)
(* ===================================================================== *)

(** *** Symbols of the native library *)




(** *** The library fails to load *)

(** C3.  The statements do what the claim says, the file does not.  With
    the imports in place and no library to open, lines 1 to 8, whatever
    statements follow them, end in the OSError that [CDLL] raises on line
    8: a load error, exit code 1, and no UI started.  The file as it is
    never gets to line 8: in the same world it ends in the SyntaxError of
    line 20, which is no load error, without having tried to load the
    library; exit code 1 and no UI hold there too. *)
Theorem missing_library_load_error_not_reached
    (w : world) (rest : list Ast.stmt) :
  installed w = true ->
  dlopen w lib_path = false ->
  (exec_module w (statements up_to_line_8 ++ rest)
     = Run (Uncaught (OSError lib_path)) t_imports /\
   load_error (OSError lib_path) = true /\
   exit_code (exec_module w (statements up_to_line_8 ++ rest)) = Some 1%Z /\
   count is_ui_start (effects (exec_module w (statements up_to_line_8 ++ rest))) = 0)
  /\
  (python w gui_eel_py = Run (Uncaught (SyntaxError 20)) [] /\
   load_error (SyntaxError 20) = false /\
   count is_load (effects (python w gui_eel_py)) = 0 /\
   exit_code (python w gui_eel_py) = Some 1%Z /\
   count is_ui_start (effects (python w gui_eel_py)) = 0).
Proof.
  intros Hi Hl. split; [|repeat split].
  assert (E : exec_module w (statements up_to_line_8)
              = Run (Uncaught (OSError lib_path)) t_imports).
  { change (exec_module w (statements up_to_line_8))
      with (python w up_to_line_8).
    rewrite python_up_to_line_8. unfold script_load.
    rewrite (installed_imports w Hi), Hl. reflexivity. }
  rewrite exec_module_aborts_app; rewrite E; [repeat split | discriminate].
Qed.

Lemma missing_library_load_error_not_reached_witness :
  installed w_no_library = true /\
  dlopen w_no_library lib_path = false /\
  exec_module w_no_library (statements up_to_line_8 ++ statements (drop 20 gui_eel_py))
    = Run (Uncaught (OSError lib_path)) t_imports /\
  python w_no_library gui_eel_py = Run (Uncaught (SyntaxError 20)) [].
Proof.
  do 2 (split; [reflexivity|]).
  destruct (missing_library_load_error_not_reached w_no_library
              (statements (drop 20 gui_eel_py)) eq_refl eq_refl)
    as ((H1 & _) & (H2 & _)).
  split; [exact H1 | exact H2].
Defined.

(* ===================================================================== *)
(** ** More on what the statements do *)
(* ===================================================================== *)

Lemma append_empty (s : string) : String.append s "" = s.
Proof.
  induction s as [|c s IH]; [reflexivity|].
  change (String c (String.append s "") = String c s). now f_equal.
Qed.

(** *** [say_hello_py] *)

(** Line 19 is [call_say_hello_py] at the string of the source. *)
Lemma line_19_calls_say_hello_py :
  statements (take 19 gui_eel_py)
    = statements up_to_line_17 ++ [call_say_hello_py "Python World"].
Proof. reflexivity. Qed.

(** X1.  [say_hello_py], lines 15 to 17.  In every world in which the
    module gets as far as defining the function, calling it with a string
    [s] prints [Hello from] followed by [s] as it is, whatever [s] holds,
    and does nothing else: no symbol is resolved, no native function is
    called, nothing is sent to the UI.  In the other worlds the run has
    ended before, as [script_define] says. *)
Theorem say_hello_py_prints_greeting (w : world) (s : string) :
  hello_run w s
    = match script_define w with
      | Run Finished t =>
          Run Finished (t ++ [EvPrint (String.append "Hello from " s)])
      | r => r
      end.
Proof.
  destruct w as [mf dl ds nt js ui]. unfold hello_run.
  with_strategy transparent [gmap_empty] ask_world;
    vm_compute; try reflexivity.
  repeat f_equal. apply append_empty.
Qed.

Lemma say_hello_py_prints_greeting_witness :
  hello_run w_all_there "%s and 100%"
    = Run Finished (t_imports ++ [EvLoadLibrary lib_path; EvEelInit "eel_web";
                                   EvExpose "say_hello_py";
                                   EvPrint "Hello from %s and 100%"]).
Proof. rewrite (say_hello_py_prints_greeting w_all_there). reflexivity. Defined.

(** *** The imports *)



(** *** The order of the start *)


